(** * dicomweb_client.session_utils: a shallow embedding

    The module [src/dicomweb_client/session_utils.py] has four helpers that
    build or configure a [requests.Session].  Python objects are mutable and
    are passed by reference, exceptions abort a call but keep every mutation
    done before them, and three of the helpers talk to the operating system
    or to the import machinery.  The embedding therefore is:

    - a heap of objects ([gmap loc obj], an object being a class name and an
      attribute dictionary) so that "the very same session" is a statement
      about references;
    - a chronological trace of the observable calls (logging, path expansion,
      existence checks, imports, credential discovery);
    - a state-and-exception monad [M] over both. *)

From Stdlib Require Import Ascii String.
From stdpp Require Import gmap strings list fin_maps.

(** ** Python values, objects and exceptions *)

Definition loc := positive.

#[warnings="-register-all"]
Inductive pyval : Type :=
| VNone
| VBool (b : bool)
| VInt (z : Z)
| VStr (s : string)
| VTuple (vs : list pyval)
| VRef (l : loc).

(** [x is None] *)
Definition is_None (v : pyval) : bool :=
  match v with VNone => true | _ => false end.

Record obj : Type := MkObj {
  obj_class : string;
  obj_attrs : gmap string pyval
}.

(** The exception classes that occur in the module and in the library calls
    it makes, with the part of the built-in hierarchy that relates them:
    [FileNotFoundError] derives from [OSError] and [ModuleNotFoundError]
    from [ImportError]; [ValueError] is what [pwd.getpwnam] raises for a name
    with a NUL byte. *)
Inductive exn_class : Type :=
| OSError
| FileNotFoundError
| ImportError
| ModuleNotFoundError
| ValueError
| OtherError (name : string).

#[global] Instance exn_class_eq_dec : EqDecision exn_class.
Proof. solve_decision. Defined.

Definition base_class (c : exn_class) : option exn_class :=
  match c with
  | FileNotFoundError => Some OSError
  | ModuleNotFoundError => Some ImportError
  | _ => None
  end.

(** [issubclass c b], for the two-level hierarchy above. *)
Definition issubclass (c b : exn_class) : bool :=
  bool_decide (c = b) || bool_decide (base_class c = Some b).

Record exn : Type := MkExn {
  exn_cls : exn_class;
  exn_msg : string
}.

(** [isinstance(e, b)], what an [except b] clause tests. *)
Definition isinstance (e : exn) (b : exn_class) : bool :=
  issubclass (exn_cls e) b.

Inductive outcome (A : Type) : Type :=
| Return (a : A)
| Raise (e : exn).
Arguments Return {A} a.
Arguments Raise {A} e.

(** ** Observable calls *)

Inductive event : Type :=
| EvLogDebug (msg : string)
| EvExpandvars (path : string)
| EvExpanduser (path : string)
| EvExists (path : string)
| EvImport (module : string)
| EvAuthDefault (scopes : list string).

Record world : Type := MkWorld {
  heap : gmap loc obj;
  trace : list event
}.

(** ** The monad: state that survives an exception *)

Definition M (A : Type) : Type := world -> world * outcome A.

Definition ret {A} (a : A) : M A := fun w => (w, Return a).

Definition raise {A} (e : exn) : M A := fun w => (w, Raise e).

Definition bind {A B} (m : M A) (k : A -> M B) : M B :=
  fun w =>
    match m w with
    | (w', Return a) => k a w'
    | (w', Raise e) => (w', Raise e)
    end.

Declare Scope py_scope.
Delimit Scope py_scope with py.
Notation "x <- m ;; k" := (bind m (fun x => k))
  (at level 100, m at next level, right associativity) : py_scope.
Notation "m ;;; k" := (bind m (fun _ => k))
  (at level 100, right associativity) : py_scope.

(** [try: body except cls: handler] *)
Definition try_except {A} (body : M A) (cls : exn_class)
    (handler : exn -> M A) : M A :=
  fun w =>
    match body w with
    | (w', Raise e) => if isinstance e cls then handler e w' else (w', Raise e)
    | r => r
    end.

Definition emit (e : event) : M unit :=
  fun w => (MkWorld (heap w) (trace w ++ [e]), Return tt).

(** [logger.debug(msg)] *)
Definition logger_debug (msg : string) : M unit := emit (EvLogDebug msg).

(** [o.name = v] on the object behind reference [l].  A reference that the
    module is handed denotes a live object; on a heap without it the write
    changes nothing, and the statements that read an attribute back assume
    the object is there. *)
Definition set_attr_obj (name : string) (v : pyval) (o : obj) : obj :=
  MkObj (obj_class o) (<[name := v]> (obj_attrs o)).

Definition setattr (l : loc) (name : string) (v : pyval) : M unit :=
  fun w => (MkWorld (alter (set_attr_obj name v) l (heap w)) (trace w),
            Return tt).

(** Reading an attribute of the object behind [l] in a world. *)
Definition getattr (w : world) (l : loc) (name : string) : option pyval :=
  o ← heap w !! l; obj_attrs o !! name.

(** Calling a class: a fresh reference is bound to the new object. *)
Definition new_object (o : obj) : M loc :=
  fun w =>
    let l := fresh (dom (heap w)) in
    (MkWorld (<[l := o]> (heap w)) (trace w), Return l).

(** ** The operating system as the module sees it

    [os.path.expandvars], [os.path.expanduser] and [os.path.exists] are
    CPython's [posixpath]/[genericpath]; they are embedded here after the
    library's code so that the helpers can be run on concrete paths.  The
    process environment, the password database and the filesystem are the
    fields of [os_env]; the filesystem is the oracle that [os.path.exists]
    consults, on the path string it is handed (relative paths are relative to
    the working directory of the process).

    A path is a string of 8-bit characters (text that the filesystem
    encoding can carry; lone surrogates, which [os.environ] and [pwd] refuse
    to encode, are not among them).  [expandvars] is the [while]
    loop of [posixpath] (the later version built on [re.sub] differs from it
    only on a [${] that is never closed); it raises nothing.  [expanduser]
    catches the [KeyError] of the password database but not the
    [ValueError] that [pwd.getpwnam] raises for a name with a NUL byte: that
    error leaves [expanduser], and line 73 or 81 with it. *)

Record os_env : Type := MkOs {
  environ : gmap string string;        (* os.environ *)
  pw_dir_self : option string;         (* pwd.getpwuid(os.getuid()).pw_dir *)
  pw_dir_of : gmap string string;      (* pwd.getpwnam(name).pw_dir *)
  path_exists : string -> bool         (* os.path.exists *)
}.

(** [\w] under [re.ASCII]: [[a-zA-Z0-9_]]. *)
Definition is_word_char (c : ascii) : bool :=
  (Ascii.leb "a" c && Ascii.leb c "z")
  || (Ascii.leb "A" c && Ascii.leb c "Z")
  || (Ascii.leb "0" c && Ascii.leb c "9")
  || Ascii.eqb c "_".

(** Longest prefix of word characters and what follows it ([\w+], greedy). *)
Fixpoint span_word (s : string) : string * string :=
  match s with
  | String c r =>
      if is_word_char c
      then let '(w, rest) := span_word r in (String c w, rest)
      else (EmptyString, s)
  | EmptyString => (EmptyString, EmptyString)
  end.

(** [[^}]*\}]: the text before the first closing brace and the text after
    it; [None] when there is no closing brace. *)
Fixpoint split_close (s : string) : option (string * string) :=
  match s with
  | EmptyString => None
  | String c r =>
      if Ascii.eqb c "}" then Some (EmptyString, r)
      else match split_close r with
           | Some (inner, rest) => Some (String c inner, rest)
           | None => None
           end
  end.

(** A match of [(\w+|\{[^}]*\})] at the head of [s]: group 1 as matched, the
    variable name (braces stripped) and the rest of the string. *)
Definition match_name (s : string) : option (string * string * string) :=
  match s with
  | String "{" r =>
      match split_close r with
      | Some (inner, rest) => Some ("{" +:+ inner +:+ "}", inner, rest)
      | None => None
      end
  | _ =>
      let '(w, rest) := span_word s in
      match w with
      | EmptyString => None
      | _ => Some (w, w, rest)
      end
  end.

(** [_varprog.search(path, i)]: the leftmost match of
    [\$(\w+|\{[^}]*\})], as (text before it, group 1, name, text after). *)
Fixpoint search_var (s : string) : option (string * string * string * string) :=
  match s with
  | EmptyString => None
  | String c r =>
      match (if Ascii.eqb c "$" then match_name r else None) with
      | Some (grp, name, rest) => Some (EmptyString, grp, name, rest)
      | None =>
          match search_var r with
          | Some (before, grp, name, rest) =>
              Some (String c before, grp, name, rest)
          | None => None
          end
      end
  end.

(** The [while True] loop of [posixpath.expandvars]: [done] is [path[:i]],
    [todo] is [path[i:]].  A variable that is set is replaced by its value
    and the search resumes after the value; one that is not set is left in
    place and the search resumes after it. *)
Fixpoint expandvars_loop (env : gmap string string) (fuel : nat)
    (done todo : string) : string :=
  match fuel with
  | O => done +:+ todo
  | S fuel' =>
      match search_var todo with
      | None => done +:+ todo
      | Some (before, grp, name, rest) =>
          match env !! name with
          | Some value =>
              expandvars_loop env fuel' (done +:+ before +:+ value) rest
          | None =>
              expandvars_loop env fuel'
                (done +:+ before +:+ String "$" grp) rest
          end
      end
  end.

(** [os.path.expandvars(path)].  Every round of the loop consumes at least
    two characters of [todo], so [String.length path] rounds are enough
    (lemma [expandvars_loop_fuel]). *)
Definition expandvars (os : os_env) (path : string) : string :=
  expandvars_loop (environ os) (String.length path) EmptyString path.

(** [s.rstrip('/')] *)
Fixpoint rstrip_slash (s : string) : string :=
  match s with
  | EmptyString => EmptyString
  | String c r =>
      match rstrip_slash r with
      | EmptyString => if Ascii.eqb c "/" then EmptyString else String c EmptyString
      | r' => String c r'
      end
  end.

(** [path[1:i]] and [path[i:]] for [i = path.find('/', 1)] (or the length of
    the path when there is no slash), given [path[1:]]. *)
Fixpoint split_sep (s : string) : string * string :=
  match s with
  | EmptyString => (EmptyString, EmptyString)
  | String c r =>
      if Ascii.eqb c "/" then (EmptyString, s)
      else let '(name, tail) := split_sep r in (String c name, tail)
  end.

(** A NUL byte somewhere in the string. *)
Fixpoint contains_nul (s : string) : bool :=
  match s with
  | EmptyString => false
  | String c r => Ascii.eqb c "000" || contains_nul r
  end.

Definition embedded_null_byte : exn := MkExn ValueError "embedded null byte".

(** [pwd.getpwnam(name).pw_dir]: the home directory, [None] for the
    [KeyError] of an unknown name, and a [ValueError] for a name that
    cannot be passed to the C library. *)
Definition getpwnam (os : os_env) (name : string) : outcome (option string) :=
  if contains_nul name then Raise embedded_null_byte
  else Return (pw_dir_of os !! name).

(** The end of [expanduser]: the path unchanged when no home was found,
    else the home without trailing slashes followed by [path[i:]]. *)
Definition with_home (path tail : string) (userhome : option string)
    : string :=
  match userhome with
  | None => path
  | Some h =>
      match rstrip_slash h +:+ tail with
      | EmptyString => "/"
      | p => p
      end
  end.

(** [os.path.expanduser(path)] *)
Definition expanduser (os : os_env) (path : string) : outcome string :=
  match path with
  | String "~" r =>
      let '(name, tail) := split_sep r in
      match name with
      | EmptyString =>
          Return (with_home path tail
                    match environ os !! "HOME" with
                    | Some h => Some h
                    | None => pw_dir_self os
                    end)
      | _ =>
          match getpwnam os name with
          | Return userhome => Return (with_home path tail userhome)
          | Raise e => Raise e
          end
      end
  | _ => Return path
  end.

(** [os.path.isabs(path)] *)
Definition isabs (path : string) : bool :=
  match path with
  | String "/" _ => true
  | _ => false
  end.

(** The three calls, as steps of [M]: each leaves its mark on the trace. *)
Definition os_path_expandvars (os : os_env) (path : string) : M string :=
  (emit (EvExpandvars path) ;;; ret (expandvars os path))%py.

Definition os_path_expanduser (os : os_env) (path : string) : M string :=
  (emit (EvExpanduser path) ;;; fun w => (w, expanduser os path))%py.

Definition os_path_exists (os : os_env) (path : string) : M bool :=
  (emit (EvExists path) ;;; ret (path_exists os path))%py.

(** ** The Python runtime around the module

    What the module takes from [requests], from the import machinery and
    from the optional [google-auth] package.  [import_error m] is [None]
    when importing [m] succeeds and [Some e] when it raises [e];
    [auth_default scopes] is the result of [google.auth.default(scopes=...)],
    a pair (credentials, project id) or an exception; the two attribute
    dictionaries are what the constructors of [requests.Session] and of
    [google.auth.transport.requests.AuthorizedSession] leave behind besides
    the attributes written here. *)

Record runtime : Type := MkRuntime {
  import_error : string -> option exn;
  auth_default : list string -> outcome (pyval * pyval);
  session_defaults : gmap string pyval;
  authorized_session_defaults : gmap string pyval
}.

(** [import m] / [from pkg import name] *)
Definition import_module (rt : runtime) (m : string) : M unit :=
  (emit (EvImport m) ;;;
   match import_error rt m with
   | Some e => raise e
   | None => ret tt
   end)%py.

(** [google.auth.default(scopes=scopes)] *)
Definition google_auth_default (rt : runtime) (scopes : list string)
    : M (pyval * pyval) :=
  (emit (EvAuthDefault scopes) ;;; fun w => (w, auth_default rt scopes))%py.

(** [requests.Session()] *)
Definition requests_Session (rt : runtime) : M loc :=
  new_object (MkObj "Session" (session_defaults rt)).

(** [google_requests.AuthorizedSession(credentials)]: a session object that
    holds the credentials it was given. *)
Definition AuthorizedSession (rt : runtime) (credentials : pyval) : M loc :=
  new_object (MkObj "AuthorizedSession"
                (<["credentials" := credentials]>
                   (authorized_session_defaults rt))).

(** ** The module *)

Module session_utils.

(** [create_session_from_auth(auth)], lines 10-28. *)
Definition create_session_from_auth (rt : runtime) (auth : pyval) : M loc :=
  (logger_debug "initialize HTTP session" ;;;
   session <- requests_Session rt ;;
   setattr session "auth" auth ;;;
   ret session)%py.

(** [create_session_from_user_pass(username, password)], lines 31-50. *)
Definition create_session_from_user_pass (rt : runtime)
    (username password : string) : M loc :=
  (logger_debug "initialize HTTP session" ;;;
   session <- requests_Session rt ;;
   setattr session "auth" (VTuple [VStr username; VStr password]) ;;;
   ret session)%py.

Definition ca_bundle_missing (ca_bundle : string) : exn :=
  MkExn OSError ("CA bundle file does not exist: " +:+ ca_bundle).

Definition cert_missing (cert : string) : exn :=
  MkExn OSError ("Certificate file does not exist: " +:+ cert).

(** [add_certs_to_session(session, ca_bundle=None, cert=None)],
    lines 53-88. *)
Definition add_certs_to_session (os : os_env) (session : loc)
    (ca_bundle cert : option string) : M loc :=
  (match ca_bundle with
   | Some ca_bundle =>
       v <- os_path_expandvars os ca_bundle ;;
       ca_bundle <- os_path_expanduser os v ;;
       found <- os_path_exists os ca_bundle ;;
       (if negb found then raise (ca_bundle_missing ca_bundle) else ret tt) ;;;
       logger_debug ("use CA bundle file: " +:+ ca_bundle) ;;;
       setattr session "verify" (VStr ca_bundle)
   | None => ret tt
   end ;;;
   match cert with
   | Some cert =>
       v <- os_path_expandvars os cert ;;
       cert <- os_path_expanduser os v ;;
       found <- os_path_exists os cert ;;
       (if negb found then raise (cert_missing cert) else ret tt) ;;;
       logger_debug ("use certificate file: " +:+ cert) ;;;
       setattr session "cert" (VStr cert)
   | None => ret tt
   end ;;;
   ret session)%py.

Definition cloud_platform_scope : string :=
  "https://www.googleapis.com/auth/cloud-platform".

Definition dquote : string := String "034" EmptyString.

Definition gcp_extra_missing : exn :=
  MkExn ImportError
    ("The dicomweb-client package needs to be installed with the "
     +:+ dquote +:+ "gcp" +:+ dquote +:+ " extra requirements to support "
     +:+ "interaction with the "
     +:+ "Google Cloud Healthcare API: pip install dicomweb-client[gcp]").

(** [create_session_from_gcp_credentials(google_credentials=None)],
    lines 91-121.  The [try] block covers both imports and the call of
    [google.auth.default]; its value here is the credentials bound when it
    ends. *)
Definition create_session_from_gcp_credentials (rt : runtime)
    (google_credentials : pyval) : M loc :=
  (google_credentials <-
     try_except
       (import_module rt "google.auth.transport.requests" ;;;
        if is_None google_credentials then
          import_module rt "google.auth" ;;;
          r <- google_auth_default rt [cloud_platform_scope] ;;
          ret (fst r)
        else ret google_credentials)
       ImportError
       (fun _ => raise gcp_extra_missing) ;;
   logger_debug "initialize Google AuthorizedSession" ;;;
   AuthorizedSession rt google_credentials)%py.

End session_utils.
Import session_utils.

(** The path as line 73 (and 81) resolves it: variables first, then the
    user's home; or the error that the expansion raises. *)
Definition resolve (os : os_env) (path : string) : outcome string :=
  expanduser os (expandvars os path).

(** The calls that expanding one path leaves on the trace, and those that
    expanding it to [resolved] and checking it leaves. *)
Definition expand_events (os : os_env) (path : string) : list event :=
  [EvExpandvars path; EvExpanduser (expandvars os path)].

Definition path_events (os : os_env) (path resolved : string) : list event :=
  [EvExpandvars path; EvExpanduser (expandvars os path); EvExists resolved].

(** [needle in haystack] on Python strings. *)
Definition substring_of (needle haystack : string) : Prop :=
  exists pre post, haystack = pre +:+ needle +:+ post.

(** ** Concrete environments

    Small machines on which the helpers are run in the examples below. *)

Module Examples.

(** A filesystem given by the list of the path strings that exist. *)
Definition fs_of (files : list string) : string -> bool :=
  fun p => bool_decide (p ∈ files).

(** HOME and CERTDIR are set; two PEM files exist under absolute names. *)
Definition os_home : os_env :=
  MkOs {[ "HOME" := "/home/u"; "CERTDIR" := "/etc/certs" ]} None ∅
    (fs_of ["/home/u/certs/ca.pem"; "/etc/certs/ca.pem"]).

(** Nothing is set; two PEM files exist in the working directory. *)
Definition os_cwd : os_env :=
  MkOs ∅ None ∅ (fs_of ["ca.pem"; "client.pem"]).

(** Nothing is set and no file exists. *)
Definition os_empty : os_env := MkOs ∅ None ∅ (fs_of []).

(** HOME is not set; the password database knows the user's home. *)
Definition os_pwd : os_env :=
  MkOs {[ "CERTDIR" := "/etc/certs" ]} (Some "/home/u") ∅ (fs_of []).


Definition fresh_session : obj :=
  MkObj "Session"
    {[ "auth" := VNone; "verify" := VBool true; "cert" := VNone;
       "max_redirects" := VInt 30 ]}.

(** One session, at reference 1, and nothing logged yet. *)
Definition w1 : world := MkWorld {[ 1%positive := fresh_session ]} [].

Definition no_module : exn :=
  MkExn ModuleNotFoundError "No module named 'google'".

Definition no_credentials : exn :=
  MkExn (OtherError "DefaultCredentialsError")
    "Could not automatically determine credentials.".

(** google-auth is not installed. *)
Definition rt_plain : runtime :=
  MkRuntime (fun _ => Some no_module) (fun _ => Raise no_credentials)
    (obj_attrs fresh_session) ∅.

(** google-auth is installed and discovery finds credentials (the object
    at reference 7) for project "p". *)
Definition rt_gcp : runtime :=
  MkRuntime (fun _ => None)
    (fun _ => Return (VRef 7%positive, VStr "p"))
    (obj_attrs fresh_session) ∅.

(** google-auth is installed and discovery finds nothing. *)
Definition rt_gcp_no_credentials : runtime :=
  MkRuntime (fun _ => None) (fun _ => Raise no_credentials)
    (obj_attrs fresh_session) ∅.

(** google-auth is installed, but discovery itself fails on an import. *)
Definition rt_gcp_broken : runtime :=
  MkRuntime (fun _ => None)
    (fun _ => Raise (MkExn ImportError "cannot import name 'crypt'"))
    (obj_attrs fresh_session) ∅.

(** Only [google.auth.transport.requests] can be imported. *)
Definition rt_transport_only : runtime :=
  MkRuntime
    (fun m => if String.eqb m "google.auth.transport.requests" then None
              else Some no_module)
    (fun _ => Raise no_credentials)
    (obj_attrs fresh_session) ∅.

End Examples.

(** ** Path expansion: the loop does not depend on its fuel *)

Section Expandvars.

Lemma span_word_length s w rest :
  span_word s = (w, rest) ->
  String.length s = String.length w + String.length rest.
Proof.
  revert w rest. induction s as [|c s IH]; intros w rest; simpl.
  - intros [= <- <-]. reflexivity.
  - destruct (is_word_char c).
    + destruct (span_word s) as [w' rest'] eqn:E.
      intros [= <- <-]. simpl. rewrite (IH _ _ eq_refl). reflexivity.
    + intros [= <- <-]. reflexivity.
Qed.

Lemma split_close_length s inner rest :
  split_close s = Some (inner, rest) ->
  String.length rest < String.length s.
Proof.
  revert inner rest. induction s as [|c s IH]; intros inner rest; simpl.
  - discriminate.
  - destruct (Ascii.eqb c "}").
    + intros [= <- <-]. lia.
    + destruct (split_close s) as [[i r]|] eqn:E; [|discriminate].
      intros [= <- <-]. specialize (IH _ _ eq_refl). lia.
Qed.

Lemma match_name_length s grp name rest :
  match_name s = Some (grp, name, rest) ->
  String.length rest < String.length s.
Proof.
  unfold match_name.
  assert (Hw : forall w r, span_word s = (w, r) ->
            match w with
            | EmptyString => None
            | _ => Some (w, w, r)
            end = Some (grp, name, rest) ->
            String.length rest < String.length s).
  { intros w r Hs Hm. apply span_word_length in Hs.
    destruct w; [discriminate|]. injection Hm as <- <- <-.
    simpl in Hs. lia. }
  destruct s as [|c s'].
  - simpl. discriminate.
  - destruct (span_word (String c s')) as [w r] eqn:E.
    destruct (decide (c = "{"%char)) as [->|Hc].
    + destruct (split_close s') as [[i r']|] eqn:E'; [|discriminate].
      intros [= <- <- <-]. apply split_close_length in E'. simpl. lia.
    + intros Hm. apply (Hw w r eq_refl).
      destruct c as [[] [] [] [] [] [] [] []]; try exact Hm.
      contradiction Hc; reflexivity.
Qed.

Lemma search_var_length s before grp name rest :
  search_var s = Some (before, grp, name, rest) ->
  String.length rest < String.length s.
Proof.
  revert before. induction s as [|c s IH]; intros before; simpl.
  - discriminate.
  - destruct (if Ascii.eqb c "$" then match_name s else None)
      as [[[g n] r]|] eqn:E.
    + intros [= <- <- <- <-].
      destruct (Ascii.eqb c "$"); [|discriminate].
      apply match_name_length in E. lia.
    + destruct (search_var s) as [[[[b g] n] r]|] eqn:E'; [|discriminate].
      intros [= <- <- <- <-]. specialize (IH _ eq_refl). lia.
Qed.

Lemma expandvars_loop_fuel env f1 f2 done todo :
  String.length todo <= f1 -> String.length todo <= f2 ->
  expandvars_loop env f1 done todo = expandvars_loop env f2 done todo.
Proof.
  revert f2 done todo.
  induction f1 as [|f1 IH]; intros f2 done todo H1 H2.
  - destruct todo; [|simpl in H1; lia].
    destruct f2; reflexivity.
  - destruct f2 as [|f2].
    + destruct todo; [|simpl in H2; lia]. reflexivity.
    + simpl.
      destruct (search_var todo) as [[[[b g] n] r]|] eqn:E; [|reflexivity].
      apply search_var_length in E.
      destruct (env !! n); apply IH; lia.
Qed.

Lemma string_app_assoc (a b c : string) :
  (a +:+ b) +:+ c = a +:+ b +:+ c.
Proof.
  induction a as [|x a IH]; [reflexivity|].
  change (String x ((a +:+ b) +:+ c) = String x (a +:+ b +:+ c)).
  now rewrite IH.
Qed.

Lemma expandvars_loop_done env fuel done todo :
  expandvars_loop env fuel done todo
  = done +:+ expandvars_loop env fuel EmptyString todo.
Proof.
  revert done todo. induction fuel as [|fuel IH]; intros done todo.
  - reflexivity.
  - simpl. destruct (search_var todo) as [[[[b g] n] r]|]; [|reflexivity].
    destruct (env !! n) as [v|].
    + rewrite IH, (IH (EmptyString +:+ b +:+ v)).
      change (EmptyString +:+ b +:+ v) with (b +:+ v).
      now rewrite <- !string_app_assoc.
    + rewrite IH, (IH (EmptyString +:+ b +:+ String "$" g)).
      change (EmptyString +:+ b +:+ String "$" g) with (b +:+ String "$" g).
      now rewrite <- !string_app_assoc.
Qed.

(** [expandvars] as a recursion over the matches of the pattern: the text
    before the leftmost reference, then its value (or the reference itself
    when the variable is not set), then the expansion of what follows. *)
Lemma expandvars_unroll os path :
  expandvars os path =
  match search_var path with
  | None => path
  | Some (before, grp, name, rest) =>
      before
      +:+ match environ os !! name with
          | Some value => value
          | None => String "$" grp
          end
      +:+ expandvars os rest
  end.
Proof.
  unfold expandvars. destruct path as [|c path]; [reflexivity|].
  cbn [String.length expandvars_loop].
  destruct (search_var (String c path)) as [[[[b g] n] r]|] eqn:E;
    [|reflexivity].
  apply search_var_length in E. cbn [String.length] in E.
  destruct (environ os !! n) as [v|];
    rewrite expandvars_loop_done,
      (expandvars_loop_fuel _ (String.length path) (String.length r))
      by lia;
    now rewrite <- !string_app_assoc.
Qed.

End Expandvars.

(** ** Running [add_certs_to_session] *)

Ltac run_py :=
  cbv [add_certs_to_session create_session_from_auth
       create_session_from_user_pass create_session_from_gcp_credentials
       requests_Session AuthorizedSession new_object import_module
       google_auth_default try_except
       bind ret raise emit logger_debug setattr
       os_path_expandvars os_path_expanduser os_path_exists];
  cbn [heap trace fst snd negb];
  rewrite <- ?app_assoc; cbn [app].

(** After a hypothesis on [resolve] or on [path_exists] has been used. *)
Ltac step_py :=
  cbv beta iota; cbn [heap trace fst snd negb];
  rewrite <- ?app_assoc; cbn [app].



Section AddCerts.

Variable os : os_env.

(** One optional path argument, as a function of the world: what lines
    72-79 do for [ca_bundle] and lines 80-87 for [cert]. *)
Lemma add_certs_none w session :
  add_certs_to_session os session None None w = (w, Return session).
Proof. destruct w. reflexivity. Qed.

Lemma add_certs_ca_raises w session ca cert e :
  resolve os ca = Raise e ->
  add_certs_to_session os session (Some ca) cert w =
    (MkWorld (heap w) (trace w ++ expand_events os ca), Raise e).
Proof.
  intros R. destruct w as [h t]. run_py.
  fold (resolve os ca). rewrite R. reflexivity.
Qed.

Lemma add_certs_ca_missing w session ca cert r :
  resolve os ca = Return r ->
  path_exists os r = false ->
  add_certs_to_session os session (Some ca) cert w =
    (MkWorld (heap w) (trace w ++ path_events os ca r),
     Raise (ca_bundle_missing r)).
Proof.
  intros R H. destruct w as [h t]. run_py.
  fold (resolve os ca). rewrite R. step_py. rewrite H. reflexivity.
Qed.

Lemma add_certs_ca_only w session ca r :
  resolve os ca = Return r ->
  path_exists os r = true ->
  add_certs_to_session os session (Some ca) None w =
    (MkWorld
       (alter (set_attr_obj "verify" (VStr r)) session (heap w))
       (trace w ++ path_events os ca r
          ++ [EvLogDebug ("use CA bundle file: " +:+ r)]),
     Return session).
Proof.
  intros R H. destruct w as [h t]. run_py.
  fold (resolve os ca). rewrite R. step_py. rewrite H. step_py.
  reflexivity.
Qed.

Lemma add_certs_cert_raises w session cert e :
  resolve os cert = Raise e ->
  add_certs_to_session os session None (Some cert) w =
    (MkWorld (heap w) (trace w ++ expand_events os cert), Raise e).
Proof.
  intros R. destruct w as [h t]. run_py.
  fold (resolve os cert). rewrite R. reflexivity.
Qed.

Lemma add_certs_cert_missing w session cert r :
  resolve os cert = Return r ->
  path_exists os r = false ->
  add_certs_to_session os session None (Some cert) w =
    (MkWorld (heap w) (trace w ++ path_events os cert r),
     Raise (cert_missing r)).
Proof.
  intros R H. destruct w as [h t]. run_py.
  fold (resolve os cert). rewrite R. step_py. rewrite H. reflexivity.
Qed.

Lemma add_certs_cert_only w session cert r :
  resolve os cert = Return r ->
  path_exists os r = true ->
  add_certs_to_session os session None (Some cert) w =
    (MkWorld
       (alter (set_attr_obj "cert" (VStr r)) session (heap w))
       (trace w ++ path_events os cert r
          ++ [EvLogDebug ("use certificate file: " +:+ r)]),
     Return session).
Proof.
  intros R H. destruct w as [h t]. run_py.
  fold (resolve os cert). rewrite R. step_py. rewrite H. step_py.
  reflexivity.
Qed.

(** With a CA bundle that exists, the call continues with the certificate
    in the world that the first half left. *)
Lemma add_certs_ca_then_cert w session ca cert r :
  resolve os ca = Return r ->
  path_exists os r = true ->
  add_certs_to_session os session (Some ca) cert w =
    add_certs_to_session os session None cert
      (MkWorld
         (alter (set_attr_obj "verify" (VStr r)) session (heap w))
         (trace w ++ path_events os ca r
            ++ [EvLogDebug ("use CA bundle file: " +:+ r)])).
Proof.
  intros R H. destruct w as [h t].
  destruct cert as [c|]; run_py; fold (resolve os ca); rewrite R; step_py;
    rewrite H; step_py; [|reflexivity].
  destruct (expanduser os (expandvars os c)) as [rc|e]; [|reflexivity].
  step_py.
  destruct (path_exists os rc); step_py; reflexivity.
Qed.

Lemma add_certs_both w session ca cert rca rcert :
  resolve os ca = Return rca ->
  path_exists os rca = true ->
  resolve os cert = Return rcert ->
  path_exists os rcert = true ->
  add_certs_to_session os session (Some ca) (Some cert) w =
    (MkWorld
       (alter (set_attr_obj "cert" (VStr rcert)) session
          (alter (set_attr_obj "verify" (VStr rca)) session (heap w)))
       (trace w ++ path_events os ca rca
          ++ [EvLogDebug ("use CA bundle file: " +:+ rca)]
          ++ path_events os cert rcert
          ++ [EvLogDebug ("use certificate file: " +:+ rcert)]),
     Return session).
Proof.
  intros Rca Hca Rcert Hcert.
  rewrite (add_certs_ca_then_cert _ _ _ _ _ Rca Hca).
  rewrite (add_certs_cert_only _ _ _ _ Rcert Hcert).
  cbn [heap trace]. now rewrite <- !app_assoc.
Qed.

Lemma add_certs_ca_ok_cert_missing w session ca cert rca rcert :
  resolve os ca = Return rca ->
  path_exists os rca = true ->
  resolve os cert = Return rcert ->
  path_exists os rcert = false ->
  add_certs_to_session os session (Some ca) (Some cert) w =
    (MkWorld
       (alter (set_attr_obj "verify" (VStr rca)) session (heap w))
       (trace w ++ path_events os ca rca
          ++ [EvLogDebug ("use CA bundle file: " +:+ rca)]
          ++ path_events os cert rcert),
     Raise (cert_missing rcert)).
Proof.
  intros Rca Hca Rcert Hcert.
  rewrite (add_certs_ca_then_cert _ _ _ _ _ Rca Hca).
  rewrite (add_certs_cert_missing _ _ _ _ Rcert Hcert).
  cbn [heap trace]. now rewrite <- !app_assoc.
Qed.

Lemma add_certs_ca_ok_cert_raises w session ca cert rca e :
  resolve os ca = Return rca ->
  path_exists os rca = true ->
  resolve os cert = Raise e ->
  add_certs_to_session os session (Some ca) (Some cert) w =
    (MkWorld
       (alter (set_attr_obj "verify" (VStr rca)) session (heap w))
       (trace w ++ path_events os ca rca
          ++ [EvLogDebug ("use CA bundle file: " +:+ rca)]
          ++ expand_events os cert),
     Raise e).
Proof.
  intros Rca Hca Rcert.
  rewrite (add_certs_ca_then_cert _ _ _ _ _ Rca Hca).
  rewrite (add_certs_cert_raises _ _ _ _ Rcert).
  cbn [heap trace]. now rewrite <- !app_assoc.
Qed.

(** Attribute reads after an attribute write. *)
Lemma getattr_alter_same h t' session name v o :
  h !! session = Some o ->
  getattr (MkWorld (alter (set_attr_obj name v) session h) t') session name
  = Some v.
Proof.
  intros H. unfold getattr. cbn [heap].
  rewrite lookup_alter_eq, H. cbn. apply lookup_insert_eq.
Qed.

Lemma getattr_alter_other h t t' l session name name' v :
  (l, name') <> (session, name) ->
  getattr (MkWorld (alter (set_attr_obj name v) session h) t') l name'
  = getattr (MkWorld h t) l name'.
Proof.
  intros H. unfold getattr. cbn [heap].
  destruct (decide (l = session)) as [->|Hl].
  - rewrite lookup_alter_eq. destruct (h !! session) as [o|]; [|reflexivity].
    cbn. apply lookup_insert_ne. congruence.
  - now rewrite lookup_alter_ne.
Qed.

End AddCerts.

(** Every case of a call, by what its arguments resolve to. *)
Ltac certs_cases os ca cert :=
  let a := fresh "a" in
  let c := fresh "c" in
  destruct ca as [a|], cert as [c|];
  try (let ra := fresh "ra" in
       let Ra := fresh "Ra" in
       let Ha := fresh "Ha" in
       destruct (resolve os a) as [ra|?] eqn:Ra;
       [destruct (path_exists os ra) eqn:Ha|]);
  try (let rc := fresh "rc" in
       let Rc := fresh "Rc" in
       let Hc := fresh "Hc" in
       destruct (resolve os c) as [rc|?] eqn:Rc;
       [destruct (path_exists os rc) eqn:Hc|]).

Ltac rewrite_run :=
  first
    [ erewrite add_certs_both by eassumption
    | erewrite add_certs_ca_ok_cert_missing by eassumption
    | erewrite add_certs_ca_ok_cert_raises by eassumption
    | erewrite add_certs_ca_missing by eassumption
    | erewrite add_certs_ca_raises by eassumption
    | erewrite add_certs_ca_only by eassumption
    | erewrite add_certs_cert_only by eassumption
    | erewrite add_certs_cert_missing by eassumption
    | erewrite add_certs_cert_raises by eassumption
    | rewrite add_certs_none ].

(** ** The claims about [add_certs_to_session] *)

(** C1.  When the CA bundle is given and its resolved path does not exist,
    the call raises at once: the only calls made are the three that resolve
    and check the CA bundle, no object is changed (so the session's [cert]
    is as it was), and the whole result is the same whatever the certificate
    argument is. *)
Theorem add_certs_ca_missing_fails_fast os w session ca cert p :
  resolve os ca = Return p ->
  path_exists os p = false ->
  let r := add_certs_to_session os session (Some ca) cert w in
  r.2 = Raise (ca_bundle_missing p)
  /\ trace r.1 = trace w ++ path_events os ca p
  /\ heap r.1 = heap w
  /\ getattr r.1 session "cert" = getattr w session "cert"
  /\ forall cert', add_certs_to_session os session (Some ca) cert' w = r.
Proof.
  intros R H r. subst r.
  rewrite (add_certs_ca_missing _ _ _ _ _ _ R H). cbn [fst snd heap trace].
  repeat split.
  intros cert'. now rewrite (add_certs_ca_missing _ _ _ _ _ _ R H).
Qed.

Lemma add_certs_ca_missing_fails_fast_witness :
  resolve Examples.os_empty "~/ca.pem" = Return "~/ca.pem"
  /\ path_exists Examples.os_empty "~/ca.pem" = false
  /\ (add_certs_to_session Examples.os_empty 1%positive
        (Some "~/ca.pem") (Some "client.pem") Examples.w1).2
     = Raise (MkExn OSError "CA bundle file does not exist: ~/ca.pem")
  /\ trace (add_certs_to_session Examples.os_empty 1%positive
        (Some "~/ca.pem") (Some "client.pem") Examples.w1).1
     = [EvExpandvars "~/ca.pem"; EvExpanduser "~/ca.pem"; EvExists "~/ca.pem"].
Proof.
  split; [reflexivity|]. split; [reflexivity|].
  destruct (add_certs_ca_missing_fails_fast Examples.os_empty Examples.w1
              1%positive "~/ca.pem" (Some "client.pem") "~/ca.pem"
              eq_refl eq_refl)
    as (Hr & Ht & _).
  split; [exact Hr | exact Ht].
Defined.








(** C3, as amended.  When both resolved paths exist, the call returns the
    session it was given, whose [verify] is now the resolved CA-bundle path
    and whose [cert] is the resolved certificate path (the given paths after
    variable and home expansion, not made absolute); its class and all its
    other attributes are as before, and so is every other object. *)
Theorem add_certs_sets_verify_and_cert os w session o ca cert rca rcert :
  heap w !! session = Some o ->
  resolve os ca = Return rca ->
  path_exists os rca = true ->
  resolve os cert = Return rcert ->
  path_exists os rcert = true ->
  let r := add_certs_to_session os session (Some ca) (Some cert) w in
  r.2 = Return session
  /\ getattr r.1 session "verify" = Some (VStr rca)
  /\ getattr r.1 session "cert" = Some (VStr rcert)
  /\ (forall name, name <> "verify" -> name <> "cert" ->
        getattr r.1 session name = getattr w session name)
  /\ obj_class <$> heap r.1 !! session = Some (obj_class o)
  /\ (forall l, l <> session -> heap r.1 !! l = heap w !! l).
Proof.
  intros Ho Rca Hca Rcert Hcert r. subst r.
  rewrite (add_certs_both _ _ _ _ _ _ _ Rca Hca Rcert Hcert). cbn [fst snd].
  destruct w as [h t]. cbn [heap trace] in *.
  split; [reflexivity|]. split; [|split; [|split; [|split]]].
  - rewrite (getattr_alter_other _ t) by congruence.
    now apply getattr_alter_same with (o := o).
  - apply getattr_alter_same with (o := set_attr_obj "verify" (VStr rca) o).
    now rewrite lookup_alter_eq, Ho.
  - intros name Hv Hc.
    rewrite (getattr_alter_other _ t) by congruence.
    now rewrite (getattr_alter_other _ t) by congruence.
  - cbn [heap]. now rewrite !lookup_alter_eq, Ho.
  - intros l Hl. cbn [heap]. now rewrite !lookup_alter_ne by congruence.
Qed.

Lemma add_certs_sets_verify_and_cert_witness :
  resolve Examples.os_home "~/certs/ca.pem" = Return "/home/u/certs/ca.pem"
  /\ path_exists Examples.os_home "/home/u/certs/ca.pem" = true
  /\ resolve Examples.os_home "$CERTDIR/ca.pem" = Return "/etc/certs/ca.pem"
  /\ path_exists Examples.os_home "/etc/certs/ca.pem" = true
  /\ getattr (add_certs_to_session Examples.os_home 1%positive
                (Some "~/certs/ca.pem") (Some "$CERTDIR/ca.pem")
                Examples.w1).1 1%positive "verify"
     = Some (VStr "/home/u/certs/ca.pem")
  /\ getattr (add_certs_to_session Examples.os_home 1%positive
                (Some "~/certs/ca.pem") (Some "$CERTDIR/ca.pem")
                Examples.w1).1 1%positive "cert"
     = Some (VStr "/etc/certs/ca.pem").
Proof.
  split; [reflexivity|]. split; [reflexivity|].
  split; [reflexivity|]. split; [reflexivity|].
  destruct (add_certs_sets_verify_and_cert Examples.os_home Examples.w1
              1%positive Examples.fresh_session
              "~/certs/ca.pem" "$CERTDIR/ca.pem"
              "/home/u/certs/ca.pem" "/etc/certs/ca.pem"
              eq_refl eq_refl eq_refl eq_refl eq_refl)
    as (_ & Hv & Hc & _).
  split; [exact Hv | exact Hc].
Defined.

(** C3, as stated, fails on relative paths: [ca.pem] and [client.pem] exist
    in the working directory, and the session ends up with exactly these
    relative names in [verify] and [cert]. *)
Lemma add_certs_relative_paths_counterexample :
  resolve Examples.os_cwd "ca.pem" = Return "ca.pem"
  /\ path_exists Examples.os_cwd "ca.pem" = true
  /\ resolve Examples.os_cwd "client.pem" = Return "client.pem"
  /\ path_exists Examples.os_cwd "client.pem" = true
  /\ getattr (add_certs_to_session Examples.os_cwd 1%positive
                (Some "ca.pem") (Some "client.pem") Examples.w1).1
       1%positive "verify" = Some (VStr "ca.pem")
  /\ isabs "ca.pem" = false
  /\ getattr (add_certs_to_session Examples.os_cwd 1%positive
                (Some "ca.pem") (Some "client.pem") Examples.w1).1
       1%positive "cert" = Some (VStr "client.pem")
  /\ isabs "client.pem" = false.
Proof. repeat split; vm_compute; reflexivity. Qed.

(** C4.  The call works on the object behind the reference it is given and
    hands that reference back: when it returns, it returns [session]; it
    creates no object and touches no other object.  With both arguments
    absent the world (objects and trace) is exactly as before.  An absent
    CA bundle leaves [verify] as it was, an absent certificate leaves
    [cert] as it was, whether the call returns or raises.  The writes land
    on the given object: a CA bundle that exists is in its [verify]
    afterwards, and when the call returns a given certificate is in its
    [cert]. *)
Theorem add_certs_in_place os w session ca cert :
  let r := add_certs_to_session os session ca cert w in
  (r.2 = Return session \/ exists e, r.2 = Raise e)
  /\ dom (heap r.1) = dom (heap w)
  /\ (forall l, l <> session -> heap r.1 !! l = heap w !! l)
  /\ add_certs_to_session os session None None w = (w, Return session)
  /\ (ca = None ->
      getattr r.1 session "verify" = getattr w session "verify")
  /\ (cert = None ->
      getattr r.1 session "cert" = getattr w session "cert")
  /\ (forall o p rp, heap w !! session = Some o -> ca = Some p ->
        resolve os p = Return rp ->
        path_exists os rp = true ->
        getattr r.1 session "verify" = Some (VStr rp))
  /\ (forall o q, heap w !! session = Some o -> cert = Some q ->
        r.2 = Return session ->
        exists rq, resolve os q = Return rq
          /\ getattr r.1 session "cert" = Some (VStr rq)).
Proof.
  intros r. subst r.
  split; [|split; [|split; [|split; [apply add_certs_none|]]]].
  - certs_cases os ca cert; rewrite_run; cbn [snd]; eauto.
  - certs_cases os ca cert; rewrite_run; cbn [fst heap];
      now rewrite ?dom_alter_L.
  - intros l Hl.
    certs_cases os ca cert; rewrite_run; cbn [fst heap];
      now rewrite ?lookup_alter_ne by congruence.
  - split; [intros ->|split; [intros ->|split]].
    + destruct w as [h t].
      destruct cert as [c|];
        [destruct (resolve os c) as [rc|ec] eqn:Rc;
           [destruct (path_exists os rc) eqn:Hc|]|];
        rewrite_run; cbn [fst heap trace]; try reflexivity.
      now rewrite (getattr_alter_other _ t) by congruence.
    + destruct w as [h t].
      destruct ca as [a|];
        [destruct (resolve os a) as [ra|ea] eqn:Ra;
           [destruct (path_exists os ra) eqn:Ha|]|];
        rewrite_run; cbn [fst heap trace]; try reflexivity.
      now rewrite (getattr_alter_other _ t) by congruence.
    + intros o p rp Ho -> Rp Hp.
      destruct w as [h t]. cbn [heap] in Ho.
      destruct cert as [c|];
        [destruct (resolve os c) as [rc|ec] eqn:Rc;
           [destruct (path_exists os rc) eqn:Hc|]|];
        rewrite_run; cbn [fst heap trace];
        rewrite ?(getattr_alter_other _ t) by congruence;
        now apply getattr_alter_same with (o := o).
    + intros o q Ho -> Hret.
      destruct w as [h t]. cbn [heap] in Ho.
      destruct (resolve os q) as [rq|eq] eqn:Rq;
        [destruct (path_exists os rq) eqn:Hq|].
      * exists rq. split; [reflexivity|].
        destruct ca as [a|];
          [destruct (resolve os a) as [ra|ea] eqn:Ra;
             [destruct (path_exists os ra) eqn:Ha|]|];
          revert Hret; rewrite_run; cbn [fst snd heap trace];
          try discriminate; intros _.
        -- apply getattr_alter_same
             with (o := set_attr_obj "verify" (VStr ra) o).
           now rewrite lookup_alter_eq, Ho.
        -- now apply getattr_alter_same with (o := o).
      * exfalso. revert Hret.
        destruct ca as [a|];
          [destruct (resolve os a) as [ra|ea] eqn:Ra;
             [destruct (path_exists os ra) eqn:Ha|]|];
          rewrite_run; discriminate.
      * exfalso. revert Hret.
        destruct ca as [a|];
          [destruct (resolve os a) as [ra|ea] eqn:Ra;
             [destruct (path_exists os ra) eqn:Ha|]|];
          rewrite_run; discriminate.
Qed.

Lemma add_certs_in_place_witness :
  add_certs_to_session Examples.os_cwd 1%positive None None Examples.w1
  = (Examples.w1, Return 1%positive)
  /\ getattr (add_certs_to_session Examples.os_cwd 1%positive
                None (Some "client.pem") Examples.w1).1 1%positive "verify"
     = Some (VBool true)
  /\ getattr (add_certs_to_session Examples.os_cwd 1%positive
                (Some "ca.pem") None Examples.w1).1 1%positive "cert"
     = Some VNone
  /\ getattr (add_certs_to_session Examples.os_cwd 1%positive
                (Some "ca.pem") None Examples.w1).1 1%positive "verify"
     = Some (VStr "ca.pem").
Proof.
  destruct (add_certs_in_place Examples.os_cwd Examples.w1 1%positive
              None (Some "client.pem")) as (_ & _ & _ & Hn & Hv & _).
  destruct (add_certs_in_place Examples.os_cwd Examples.w1 1%positive
              (Some "ca.pem") None) as (_ & _ & _ & _ & _ & Hc & Hset & _).
  split; [exact Hn|]. split; [exact (Hv eq_refl)|].
  split; [exact (Hc eq_refl)|].
  exact (Hset Examples.fresh_session "ca.pem" "ca.pem"
           eq_refl eq_refl eq_refl eq_refl).
Defined.

(** C10.  The error path is not atomic: with a CA bundle that exists and a
    certificate that does not, the call raises the certificate error, and
    the session already carries the resolved CA-bundle path in [verify]; if
    that was not its [verify] before, the heap after the failed call differs
    from the heap before it. *)
Theorem add_certs_error_keeps_verify os w session o ca cert rca rcert :
  heap w !! session = Some o ->
  resolve os ca = Return rca ->
  path_exists os rca = true ->
  resolve os cert = Return rcert ->
  path_exists os rcert = false ->
  let r := add_certs_to_session os session (Some ca) (Some cert) w in
  r.2 = Raise (cert_missing rcert)
  /\ getattr r.1 session "verify" = Some (VStr rca)
  /\ (getattr w session "verify" <> Some (VStr rca) ->
      heap r.1 <> heap w).
Proof.
  intros Ho Rca Hca Rcert Hcert r. subst r.
  rewrite (add_certs_ca_ok_cert_missing _ _ _ _ _ _ _ Rca Hca Rcert Hcert).
  cbn [fst snd].
  split; [reflexivity|].
  assert (Hv : getattr
            (MkWorld (alter (set_attr_obj "verify" (VStr rca))
                        session (heap w))
               (trace w ++ path_events os ca rca
                  ++ [EvLogDebug ("use CA bundle file: " +:+ rca)]
                  ++ path_events os cert rcert)) session "verify"
          = Some (VStr rca))
    by now apply getattr_alter_same with (o := o).
  split; [exact Hv|].
  intros Hne Heq. apply Hne. rewrite <- Hv.
  unfold getattr. cbn [heap] in *. now rewrite Heq.
Qed.

Lemma add_certs_error_keeps_verify_witness :
  resolve Examples.os_cwd "ca.pem" = Return "ca.pem"
  /\ path_exists Examples.os_cwd "ca.pem" = true
  /\ resolve Examples.os_cwd "~/client.pem" = Return "~/client.pem"
  /\ path_exists Examples.os_cwd "~/client.pem" = false
  /\ (add_certs_to_session Examples.os_cwd 1%positive
        (Some "ca.pem") (Some "~/client.pem") Examples.w1).2
     = Raise (MkExn OSError "Certificate file does not exist: ~/client.pem")
  /\ getattr Examples.w1 1%positive "verify" = Some (VBool true)
  /\ getattr (add_certs_to_session Examples.os_cwd 1%positive
                (Some "ca.pem") (Some "~/client.pem") Examples.w1).1
       1%positive "verify" = Some (VStr "ca.pem").
Proof.
  split; [reflexivity|]. split; [reflexivity|].
  split; [reflexivity|]. split; [reflexivity|].
  destruct (add_certs_error_keeps_verify Examples.os_cwd Examples.w1
              1%positive Examples.fresh_session "ca.pem" "~/client.pem"
              "ca.pem" "~/client.pem"
              eq_refl eq_refl eq_refl eq_refl eq_refl) as (Hr & Hv & _).
  split; [exact Hr|]. split; [reflexivity | exact Hv].
Defined.

(** C5.  Resolution expands the home directory and environment variables:
    with home directory [/home/u] (from HOME or, when HOME is not set, from
    the password database) ["~/certs/ca.pem"] resolves to
    [/home/u/certs/ca.pem], and with CERTDIR set to [/etc/certs]
    ["$CERTDIR/ca.pem"] resolves to [/etc/certs/ca.pem].  In both cases the
    existence check is made on the resolved path, and the resolved path is
    what is assigned to [verify] (or named in the error). *)
Theorem add_certs_resolves_home_and_variables os w session o :
  environ os !! "HOME" = Some "/home/u"
  \/ (environ os !! "HOME" = None /\ pw_dir_self os = Some "/home/u") ->
  environ os !! "CERTDIR" = Some "/etc/certs" ->
  heap w !! session = Some o ->
  resolve os "~/certs/ca.pem" = Return "/home/u/certs/ca.pem"
  /\ resolve os "$CERTDIR/ca.pem" = Return "/etc/certs/ca.pem"
  /\ (let r := add_certs_to_session os session
                 (Some "~/certs/ca.pem") None w in
      if path_exists os "/home/u/certs/ca.pem"
      then r.2 = Return session
           /\ getattr r.1 session "verify"
              = Some (VStr "/home/u/certs/ca.pem")
           /\ trace r.1 = trace w
                ++ [EvExpandvars "~/certs/ca.pem";
                    EvExpanduser "~/certs/ca.pem";
                    EvExists "/home/u/certs/ca.pem";
                    EvLogDebug "use CA bundle file: /home/u/certs/ca.pem"]
      else r = (MkWorld (heap w)
                  (trace w ++ [EvExpandvars "~/certs/ca.pem";
                               EvExpanduser "~/certs/ca.pem";
                               EvExists "/home/u/certs/ca.pem"]),
                Raise (MkExn OSError
                  "CA bundle file does not exist: /home/u/certs/ca.pem")))
  /\ (let r := add_certs_to_session os session
                 (Some "$CERTDIR/ca.pem") None w in
      if path_exists os "/etc/certs/ca.pem"
      then r.2 = Return session
           /\ getattr r.1 session "verify" = Some (VStr "/etc/certs/ca.pem")
           /\ trace r.1 = trace w
                ++ [EvExpandvars "$CERTDIR/ca.pem";
                    EvExpanduser "/etc/certs/ca.pem";
                    EvExists "/etc/certs/ca.pem";
                    EvLogDebug "use CA bundle file: /etc/certs/ca.pem"]
      else r = (MkWorld (heap w)
                  (trace w ++ [EvExpandvars "$CERTDIR/ca.pem";
                               EvExpanduser "/etc/certs/ca.pem";
                               EvExists "/etc/certs/ca.pem"]),
                Raise (MkExn OSError
                  "CA bundle file does not exist: /etc/certs/ca.pem"))).
Proof.
  intros Hhome Hvar Ho.
  assert (Ev1 : expandvars os "~/certs/ca.pem" = "~/certs/ca.pem")
    by reflexivity.
  assert (Ev2 : expandvars os "$CERTDIR/ca.pem" = "/etc/certs/ca.pem").
  { rewrite expandvars_unroll.
    change (search_var "$CERTDIR/ca.pem")
      with (Some ("", "CERTDIR", "CERTDIR", "/ca.pem")).
    cbv beta iota. rewrite Hvar. reflexivity. }
  assert (R1 : resolve os "~/certs/ca.pem" = Return "/home/u/certs/ca.pem").
  { unfold resolve. rewrite Ev1. unfold expanduser.
    change (split_sep "/certs/ca.pem") with ("", "/certs/ca.pem").
    cbv beta iota.
    destruct Hhome as [-> | [-> ->]]; reflexivity. }
  assert (R2 : resolve os "$CERTDIR/ca.pem" = Return "/etc/certs/ca.pem").
  { unfold resolve. rewrite Ev2. reflexivity. }
  split; [exact R1|]. split; [exact R2|]. split.
  - cbv zeta.
    destruct (path_exists os "/home/u/certs/ca.pem") eqn:E.
    + rewrite (add_certs_ca_only _ _ _ _ _ R1 E).
      cbn [fst snd]. unfold path_events. rewrite Ev1.
      split; [reflexivity|]. split; [|reflexivity].
      now apply getattr_alter_same with (o := o).
    + rewrite (add_certs_ca_missing _ _ _ _ _ _ R1 E).
      unfold path_events. rewrite Ev1. reflexivity.
  - cbv zeta.
    destruct (path_exists os "/etc/certs/ca.pem") eqn:E.
    + rewrite (add_certs_ca_only _ _ _ _ _ R2 E).
      cbn [fst snd]. unfold path_events. rewrite Ev2.
      split; [reflexivity|]. split; [|reflexivity].
      now apply getattr_alter_same with (o := o).
    + rewrite (add_certs_ca_missing _ _ _ _ _ _ R2 E).
      unfold path_events. rewrite Ev2. reflexivity.
Qed.

Lemma add_certs_resolves_home_and_variables_witness :
  (environ Examples.os_pwd !! "HOME" = None
   /\ pw_dir_self Examples.os_pwd = Some "/home/u")
  /\ environ Examples.os_home !! "HOME" = Some "/home/u"
  /\ environ Examples.os_home !! "CERTDIR" = Some "/etc/certs"
  /\ resolve Examples.os_pwd "~/certs/ca.pem" = Return "/home/u/certs/ca.pem"
  /\ resolve Examples.os_home "~/certs/ca.pem" = Return "/home/u/certs/ca.pem"
  /\ resolve Examples.os_home "$CERTDIR/ca.pem" = Return "/etc/certs/ca.pem".
Proof.
  split; [split; reflexivity|]. split; [reflexivity|].
  split; [reflexivity|].
  destruct (add_certs_resolves_home_and_variables Examples.os_pwd Examples.w1
              1%positive Examples.fresh_session
              (or_intror (conj eq_refl eq_refl)) eq_refl eq_refl)
    as (Hp & _).
  destruct (add_certs_resolves_home_and_variables Examples.os_home Examples.w1
              1%positive Examples.fresh_session
              (or_introl eq_refl) eq_refl eq_refl)
    as (Hh & Hv & _).
  split; [exact Hp|]. split; [exact Hh | exact Hv].
Defined.

(** ** The claims about the constructors *)

(** A session object as [requests.Session()] followed by [session.auth = auth]
    leaves it. *)
Lemma new_session_with_auth rt auth w :
  create_session_from_auth rt auth w =
    (MkWorld
       (<[fresh (dom (heap w)) :=
            MkObj "Session" (<["auth" := auth]> (session_defaults rt))]>
          (heap w))
       (trace w ++ [EvLogDebug "initialize HTTP session"]),
     Return (fresh (dom (heap w)))).
Proof.
  destruct w as [h t]. run_py. now rewrite alter_insert_eq.
Qed.

Lemma fresh_loc_unused (h : gmap loc obj) : h !! fresh (dom h) = None.
Proof. apply not_elem_of_dom, is_fresh. Qed.

(** C6.  For every username and password the call returns a reference that
    was not in use before, bound to a new [Session] whose [auth] is exactly
    the pair (username, password); every object that existed is unchanged,
    nothing is raised, and the only call made is the debug log: nothing
    inspects or validates the credentials. *)
Theorem create_session_from_user_pass_auth rt username password w :
  exists session,
    create_session_from_user_pass rt username password w =
      (MkWorld
         (<[session :=
              MkObj "Session"
                (<["auth" := VTuple [VStr username; VStr password]]>
                   (session_defaults rt))]> (heap w))
         (trace w ++ [EvLogDebug "initialize HTTP session"]),
       Return session)
    /\ heap w !! session = None
    /\ getattr (create_session_from_user_pass rt username password w).1
         session "auth"
       = Some (VTuple [VStr username; VStr password]).
Proof.
  exists (fresh (dom (heap w))).
  assert (E : create_session_from_user_pass rt username password w
              = create_session_from_auth rt
                  (VTuple [VStr username; VStr password]) w) by reflexivity.
  rewrite E, new_session_with_auth. cbn [fst].
  split; [reflexivity|]. split; [apply fresh_loc_unused|].
  unfold getattr. cbn [heap]. rewrite lookup_insert_eq. cbn.
  apply lookup_insert_eq.
Qed.

(** C7.  For every value given as the authentication object, [None]
    included, the call returns a reference that was not in use before, bound
    to a new [Session] whose [auth] is that very value; nothing is raised and
    nothing but the debug log is called.  With [None] the new session has
    [auth] equal to [None]: it is unauthenticated. *)
Theorem create_session_from_auth_stores_auth rt auth w :
  exists session,
    create_session_from_auth rt auth w =
      (MkWorld
         (<[session :=
              MkObj "Session" (<["auth" := auth]> (session_defaults rt))]>
            (heap w))
         (trace w ++ [EvLogDebug "initialize HTTP session"]),
       Return session)
    /\ heap w !! session = None
    /\ getattr (create_session_from_auth rt auth w).1 session "auth"
       = Some auth
    /\ getattr (create_session_from_auth rt VNone w).1 session "auth"
       = Some VNone.
Proof.
  exists (fresh (dom (heap w))).
  rewrite !new_session_with_auth. cbn [fst].
  split; [reflexivity|]. split; [apply fresh_loc_unused|].
  unfold getattr. cbn [heap]. rewrite !lookup_insert_eq. cbn.
  split; apply lookup_insert_eq.
Qed.

(** ** The claims about [create_session_from_gcp_credentials] *)

Lemma gcp_import_fails rt credentials w e :
  import_error rt "google.auth.transport.requests" = Some e ->
  isinstance e ImportError = true ->
  create_session_from_gcp_credentials rt credentials w =
    (MkWorld (heap w) (trace w ++ [EvImport "google.auth.transport.requests"]),
     Raise gcp_extra_missing).
Proof.
  intros Himp Hcls. destruct w as [h t]. run_py.
  rewrite Himp. cbn [heap trace]. rewrite Hcls. reflexivity.
Qed.

Lemma gcp_given_credentials rt credentials w :
  import_error rt "google.auth.transport.requests" = None ->
  is_None credentials = false ->
  create_session_from_gcp_credentials rt credentials w =
    (MkWorld
       (<[fresh (dom (heap w)) :=
            MkObj "AuthorizedSession"
              (<["credentials" := credentials]>
                 (authorized_session_defaults rt))]> (heap w))
       (trace w ++ [EvImport "google.auth.transport.requests";
                    EvLogDebug "initialize Google AuthorizedSession"]),
     Return (fresh (dom (heap w)))).
Proof.
  intros Himp Hc. destruct w as [h t]. run_py.
  rewrite Himp, Hc. cbn [heap trace]. now rewrite <- !app_assoc.
Qed.

Lemma gcp_default_credentials rt w (res : outcome (pyval * pyval)) :
  import_error rt "google.auth.transport.requests" = None ->
  import_error rt "google.auth" = None ->
  auth_default rt ["https://www.googleapis.com/auth/cloud-platform"] = res ->
  create_session_from_gcp_credentials rt VNone w =
    match res with
    | Return (discovered, _) =>
        (MkWorld
           (<[fresh (dom (heap w)) :=
                MkObj "AuthorizedSession"
                  (<["credentials" := discovered]>
                     (authorized_session_defaults rt))]> (heap w))
           (trace w ++ [EvImport "google.auth.transport.requests";
                        EvImport "google.auth";
                        EvAuthDefault
                          ["https://www.googleapis.com/auth/cloud-platform"];
                        EvLogDebug "initialize Google AuthorizedSession"]),
         Return (fresh (dom (heap w))))
    | Raise e =>
        (MkWorld (heap w)
           (trace w ++ [EvImport "google.auth.transport.requests";
                        EvImport "google.auth";
                        EvAuthDefault
                          ["https://www.googleapis.com/auth/cloud-platform"]]),
         if isinstance e ImportError then Raise gcp_extra_missing
         else Raise e)
    end.
Proof.
  intros Ht Ha Hd. destruct w as [h t]. run_py.
  rewrite Ht. cbn [heap trace is_None]. rewrite Ha. cbn [heap trace].
  unfold cloud_platform_scope. rewrite Hd.
  destruct res as [[c p]|e]; cbn [heap trace fst];
    [|destruct (isinstance e ImportError)];
    now rewrite <- ?app_assoc.
Qed.

(** C8.  When [google.auth.transport.requests] cannot be imported, the call
    raises an [ImportError] (the module's error for a missing optional
    dependency) whose message names the [gcp] extra to install; it does so
    whether or not credentials were given, after the failed import and
    nothing else.  That error is not an [OSError]; and an error of another
    class that credential discovery raises when the package is there (no
    usable credentials) reaches the caller as it is, so an
    [except ImportError] clause tells the two apart. *)
Theorem gcp_missing_dependency_raises_ImportError
    rt credentials w e rt' w' e' :
  import_error rt "google.auth.transport.requests" = Some e ->
  isinstance e ImportError = true ->
  import_error rt' "google.auth.transport.requests" = None ->
  import_error rt' "google.auth" = None ->
  auth_default rt' ["https://www.googleapis.com/auth/cloud-platform"]
  = Raise e' ->
  isinstance e' ImportError = false ->
  create_session_from_gcp_credentials rt credentials w =
    (MkWorld (heap w) (trace w ++ [EvImport "google.auth.transport.requests"]),
     Raise gcp_extra_missing)
  /\ exn_cls gcp_extra_missing = ImportError
  /\ isinstance gcp_extra_missing OSError = false
  /\ substring_of "pip install dicomweb-client[gcp]"
       (exn_msg gcp_extra_missing)
  /\ (create_session_from_gcp_credentials rt' VNone w').2 = Raise e'
  /\ e' <> gcp_extra_missing.
Proof.
  intros Himp Hcls Ht Ha Hd Hcls'.
  split; [now apply gcp_import_fails with (e := e)|].
  split; [reflexivity|]. split; [reflexivity|]. split.
  - exists ("The dicomweb-client package needs to be installed with the "
            +:+ dquote +:+ "gcp" +:+ dquote
            +:+ " extra requirements to support interaction with the "
            +:+ "Google Cloud Healthcare API: "), "".
    reflexivity.
  - rewrite (gcp_default_credentials rt' w' _ Ht Ha Hd). cbn [snd].
    rewrite Hcls'. split; [reflexivity|].
    intros ->. discriminate Hcls'.
Qed.

Lemma gcp_missing_dependency_raises_ImportError_witness :
  import_error Examples.rt_plain "google.auth.transport.requests"
  = Some Examples.no_module
  /\ isinstance Examples.no_module ImportError = true
  /\ isinstance Examples.no_credentials ImportError = false
  /\ create_session_from_gcp_credentials Examples.rt_plain VNone Examples.w1
     = (MkWorld (heap Examples.w1) [EvImport "google.auth.transport.requests"],
        Raise gcp_extra_missing)
  /\ (create_session_from_gcp_credentials Examples.rt_gcp_no_credentials
        VNone Examples.w1).2 = Raise Examples.no_credentials.
Proof.
  split; [reflexivity|]. split; [reflexivity|]. split; [reflexivity|].
  destruct (gcp_missing_dependency_raises_ImportError
              Examples.rt_plain VNone Examples.w1 Examples.no_module
              Examples.rt_gcp_no_credentials Examples.w1
              Examples.no_credentials
              eq_refl eq_refl eq_refl eq_refl eq_refl eq_refl)
    as (Hr & _ & _ & _ & Hc & _).
  split; [exact Hr | exact Hc].
Defined.

(** C9.  With [google.auth.transport.requests] importable: given
    credentials (not [None]), the call returns a new [AuthorizedSession]
    holding exactly those credentials, and [google.auth.default] is not
    called; given none, it calls [google.auth.default] once, with the single
    scope [https://www.googleapis.com/auth/cloud-platform], and returns a
    new [AuthorizedSession] holding the credentials that call found. *)
Theorem gcp_session_wraps_credentials rt w credentials discovered project :
  import_error rt "google.auth.transport.requests" = None ->
  (is_None credentials = false ->
   exists session,
     create_session_from_gcp_credentials rt credentials w =
       (MkWorld
          (<[session :=
               MkObj "AuthorizedSession"
                 (<["credentials" := credentials]>
                    (authorized_session_defaults rt))]> (heap w))
          (trace w ++ [EvImport "google.auth.transport.requests";
                       EvLogDebug "initialize Google AuthorizedSession"]),
        Return session)
     /\ heap w !! session = None
     /\ getattr (create_session_from_gcp_credentials rt credentials w).1
          session "credentials" = Some credentials
     /\ forall scopes,
          EvAuthDefault scopes
            ∈ trace (create_session_from_gcp_credentials rt credentials w).1 ->
          EvAuthDefault scopes ∈ trace w)
  /\ (import_error rt "google.auth" = None ->
      auth_default rt ["https://www.googleapis.com/auth/cloud-platform"]
      = Return (discovered, project) ->
      exists session,
        create_session_from_gcp_credentials rt VNone w =
          (MkWorld
             (<[session :=
                  MkObj "AuthorizedSession"
                    (<["credentials" := discovered]>
                       (authorized_session_defaults rt))]> (heap w))
             (trace w ++ [EvImport "google.auth.transport.requests";
                          EvImport "google.auth";
                          EvAuthDefault
                            ["https://www.googleapis.com/auth/cloud-platform"];
                          EvLogDebug "initialize Google AuthorizedSession"]),
           Return session)
        /\ heap w !! session = None
        /\ getattr (create_session_from_gcp_credentials rt VNone w).1
             session "credentials" = Some discovered).
Proof.
  intros Ht. split.
  - intros Hc. exists (fresh (dom (heap w))).
    rewrite gcp_given_credentials by assumption. cbn [fst trace].
    split; [reflexivity|]. split; [apply fresh_loc_unused|]. split.
    + unfold getattr. cbn [heap]. rewrite lookup_insert_eq. cbn.
      apply lookup_insert_eq.
    + intros scopes. rewrite !elem_of_app, !elem_of_cons, elem_of_nil.
      intros [H|[H|[H|[]]]]; [exact H|discriminate..].
  - intros Ha Hd. exists (fresh (dom (heap w))).
    rewrite (gcp_default_credentials rt w _ Ht Ha Hd). cbn [fst].
    split; [reflexivity|]. split; [apply fresh_loc_unused|].
    unfold getattr. cbn [heap]. rewrite lookup_insert_eq. cbn.
    apply lookup_insert_eq.
Qed.

Lemma gcp_session_wraps_credentials_witness :
  import_error Examples.rt_gcp "google.auth.transport.requests" = None
  /\ is_None (VRef 5%positive) = false
  /\ import_error Examples.rt_gcp "google.auth" = None
  /\ auth_default Examples.rt_gcp
       ["https://www.googleapis.com/auth/cloud-platform"]
     = Return (VRef 7%positive, VStr "p")
  /\ (exists session,
        (create_session_from_gcp_credentials Examples.rt_gcp
           (VRef 5%positive) Examples.w1).2 = Return session
        /\ getattr (create_session_from_gcp_credentials Examples.rt_gcp
                      (VRef 5%positive) Examples.w1).1 session "credentials"
           = Some (VRef 5%positive))
  /\ (exists session,
        (create_session_from_gcp_credentials Examples.rt_gcp
           VNone Examples.w1).2 = Return session
        /\ getattr (create_session_from_gcp_credentials Examples.rt_gcp
                      VNone Examples.w1).1 session "credentials"
           = Some (VRef 7%positive)).
Proof.
  split; [reflexivity|]. split; [reflexivity|]. split; [reflexivity|].
  split; [reflexivity|].
  destruct (gcp_session_wraps_credentials Examples.rt_gcp Examples.w1
              (VRef 5%positive) (VRef 7%positive) (VStr "p") eq_refl)
    as (Hgiven & Hnone).
  destruct (Hgiven eq_refl) as (s1 & E1 & _ & A1 & _).
  destruct (Hnone eq_refl eq_refl) as (s2 & E2 & _ & A2).
  split.
  - exists s1. split; [now rewrite E1 | exact A1].
  - exists s2. split; [now rewrite E2 | exact A2].
Defined.

(** * Further properties of the module *)

(** ** Paths that expansion leaves alone *)

Lemma search_var_no_dollar p :
  "$"%char ∉ list_ascii_of_string p -> search_var p = None.
Proof.
  induction p as [|c p IH]; [reflexivity|].
  cbn [list_ascii_of_string search_var]. intros Hnot.
  apply not_elem_of_cons in Hnot as [Hc Hp].
  destruct (Ascii.eqb_spec c "$") as [->|_]; [contradiction Hc; reflexivity|].
  now rewrite (IH Hp).
Qed.

Lemma expanduser_no_tilde os p :
  (forall r, p <> String "~" r) -> expanduser os p = Return p.
Proof.
  intros H. destruct p as [|c r]; [reflexivity|].
  destruct c as [[] [] [] [] [] [] [] []]; try reflexivity.
  contradiction (H r eq_refl).
Qed.








(** ** Attribute writes on the heap *)

Lemma set_attr_obj_twice name v1 v2 o :
  set_attr_obj name v2 (set_attr_obj name v1 o) = set_attr_obj name v2 o.
Proof. unfold set_attr_obj. cbn. f_equal. apply insert_insert_eq. Qed.

Lemma set_attr_obj_comm name name' v v' o :
  name <> name' ->
  set_attr_obj name v (set_attr_obj name' v' o)
  = set_attr_obj name' v' (set_attr_obj name v o).
Proof.
  intros H. unfold set_attr_obj. cbn. f_equal. now apply insert_insert_ne.
Qed.

Lemma alter_set_twice (h : gmap loc obj) l name v1 v2 :
  alter (set_attr_obj name v2) l (alter (set_attr_obj name v1) l h)
  = alter (set_attr_obj name v2) l h.
Proof.
  apply map_eq. intros k. destruct (decide (k = l)) as [->|Hk].
  - rewrite !lookup_alter_eq. destruct (h !! l); cbn; [|reflexivity].
    now rewrite set_attr_obj_twice.
  - now rewrite !lookup_alter_ne by congruence.
Qed.

Lemma alter_set_comm (h : gmap loc obj) l name name' v v' :
  name <> name' ->
  alter (set_attr_obj name v) l (alter (set_attr_obj name' v') l h)
  = alter (set_attr_obj name' v') l (alter (set_attr_obj name v) l h).
Proof.
  intros H. apply map_eq. intros k. destruct (decide (k = l)) as [->|Hk].
  - rewrite !lookup_alter_eq. destruct (h !! l); cbn; [|reflexivity].
    now rewrite set_attr_obj_comm.
  - now rewrite !lookup_alter_ne by congruence.
Qed.

(** ** How calls of [add_certs_to_session] compose *)

(** X1.  One call with both arguments is the call with the CA bundle alone
    followed, if that returns, by the call with the certificate alone, in
    the world the first call left: same objects, same trace, same result. *)
Theorem add_certs_sequential os w session ca cert :
  add_certs_to_session os session ca cert w =
    match add_certs_to_session os session ca None w with
    | (w', Return _) => add_certs_to_session os session None cert w'
    | (w', Raise e) => (w', Raise e)
    end.
Proof.
  destruct ca as [a|].
  - destruct (resolve os a) as [ra|ea] eqn:Ra.
    + destruct (path_exists os ra) eqn:Ha.
      * rewrite (add_certs_ca_then_cert _ _ _ _ _ _ Ra Ha).
        now rewrite (add_certs_ca_only _ _ _ _ _ Ra Ha).
      * now rewrite !(add_certs_ca_missing _ _ _ _ _ _ Ra Ha).
    + now rewrite !(add_certs_ca_raises _ _ _ _ _ _ Ra).
  - now rewrite add_certs_none.
Qed.

(** X2.  Later calls overwrite: after a successful call with one pair of
    paths, a successful call with another pair leaves exactly the objects
    that the second call alone would have left.  In particular, repeating a
    successful call changes no object. *)
Theorem add_certs_last_write_wins
    os w session ca1 cert1 ca2 cert2 rca1 rcert1 rca2 rcert2 :
  resolve os ca1 = Return rca1 -> path_exists os rca1 = true ->
  resolve os cert1 = Return rcert1 -> path_exists os rcert1 = true ->
  resolve os ca2 = Return rca2 -> path_exists os rca2 = true ->
  resolve os cert2 = Return rcert2 -> path_exists os rcert2 = true ->
  let w1 := (add_certs_to_session os session (Some ca1) (Some cert1) w).1 in
  heap (add_certs_to_session os session (Some ca2) (Some cert2) w1).1
  = heap (add_certs_to_session os session (Some ca2) (Some cert2) w).1
  /\ heap (add_certs_to_session os session (Some ca1) (Some cert1) w1).1
     = heap w1.
Proof.
  intros R1 H1 R1' H1' R2 H2 R2' H2' w1. subst w1.
  rewrite !(add_certs_both _ _ _ _ _ _ _ R1 H1 R1' H1').
  rewrite !(add_certs_both _ _ _ _ _ _ _ R2 H2 R2' H2').
  cbn [fst heap].
  split.
  - rewrite (alter_set_comm _ _ "verify" "cert") by discriminate.
    now rewrite !alter_set_twice.
  - rewrite (alter_set_comm _ _ "verify" "cert") by discriminate.
    now rewrite !alter_set_twice.
Qed.

Lemma add_certs_last_write_wins_witness :
  resolve Examples.os_home "~/certs/ca.pem" = Return "/home/u/certs/ca.pem"
  /\ path_exists Examples.os_home "/home/u/certs/ca.pem" = true
  /\ resolve Examples.os_home "$CERTDIR/ca.pem" = Return "/etc/certs/ca.pem"
  /\ path_exists Examples.os_home "/etc/certs/ca.pem" = true
  /\ heap (add_certs_to_session Examples.os_home 1%positive
             (Some "$CERTDIR/ca.pem") (Some "~/certs/ca.pem")
             (add_certs_to_session Examples.os_home 1%positive
                (Some "~/certs/ca.pem") (Some "$CERTDIR/ca.pem")
                Examples.w1).1).1
     = heap (add_certs_to_session Examples.os_home 1%positive
               (Some "$CERTDIR/ca.pem") (Some "~/certs/ca.pem")
               Examples.w1).1.
Proof.
  split; [reflexivity|]. split; [reflexivity|].
  split; [reflexivity|]. split; [reflexivity|].
  exact (proj1 (add_certs_last_write_wins Examples.os_home Examples.w1
                  1%positive "~/certs/ca.pem" "$CERTDIR/ca.pem"
                  "$CERTDIR/ca.pem" "~/certs/ca.pem"
                  "/home/u/certs/ca.pem" "/etc/certs/ca.pem"
                  "/etc/certs/ca.pem" "/home/u/certs/ca.pem"
                  eq_refl eq_refl eq_refl eq_refl
                  eq_refl eq_refl eq_refl eq_refl)).
Defined.

(** X3.  Setting the CA bundle and the certificate in two separate calls
    gives the same objects in either order, the ones that the single call
    with both arguments gives. *)
Theorem add_certs_order_irrelevant os w session ca cert rca rcert :
  resolve os ca = Return rca -> path_exists os rca = true ->
  resolve os cert = Return rcert -> path_exists os rcert = true ->
  let both := add_certs_to_session os session (Some ca) (Some cert) w in
  let ca_first :=
    add_certs_to_session os session None (Some cert)
      (add_certs_to_session os session (Some ca) None w).1 in
  let cert_first :=
    add_certs_to_session os session (Some ca) None
      (add_certs_to_session os session None (Some cert) w).1 in
  heap ca_first.1 = heap both.1
  /\ heap cert_first.1 = heap both.1
  /\ ca_first.2 = Return session
  /\ cert_first.2 = Return session.
Proof.
  intros Rca Hca Rcert Hcert both ca_first cert_first.
  subst both ca_first cert_first.
  rewrite (add_certs_both _ _ _ _ _ _ _ Rca Hca Rcert Hcert).
  rewrite !(add_certs_ca_only _ _ _ _ _ Rca Hca),
    !(add_certs_cert_only _ _ _ _ _ Rcert Hcert).
  cbn [fst snd heap].
  split; [reflexivity|]. split; [|split; reflexivity].
  now apply alter_set_comm.
Qed.

Lemma add_certs_order_irrelevant_witness :
  resolve Examples.os_cwd "ca.pem" = Return "ca.pem"
  /\ path_exists Examples.os_cwd "ca.pem" = true
  /\ resolve Examples.os_cwd "client.pem" = Return "client.pem"
  /\ path_exists Examples.os_cwd "client.pem" = true
  /\ heap (add_certs_to_session Examples.os_cwd 1%positive
             (Some "ca.pem") None
             (add_certs_to_session Examples.os_cwd 1%positive
                None (Some "client.pem") Examples.w1).1).1
     = heap (add_certs_to_session Examples.os_cwd 1%positive
               (Some "ca.pem") (Some "client.pem") Examples.w1).1.
Proof.
  split; [reflexivity|]. split; [reflexivity|].
  split; [reflexivity|]. split; [reflexivity|].
  destruct (add_certs_order_irrelevant Examples.os_cwd Examples.w1 1%positive
              "ca.pem" "client.pem" "ca.pem" "client.pem"
              eq_refl eq_refl eq_refl eq_refl) as (_ & H & _).
  exact H.
Defined.

(** X4.  What a failed call can have changed: nothing but the [verify]
    attribute of the given session.  And it has changed an object only when
    the CA bundle was given, resolved and exists, while the certificate was
    given and did not resolve to a file that exists. *)
Theorem add_certs_raise_frame os w session ca cert e :
  (add_certs_to_session os session ca cert w).2 = Raise e ->
  (forall l name, (l, name) <> (session, "verify") ->
     getattr (add_certs_to_session os session ca cert w).1 l name
     = getattr w l name)
  /\ (heap (add_certs_to_session os session ca cert w).1 <> heap w ->
      exists a c ra, ca = Some a /\ cert = Some c
        /\ resolve os a = Return ra
        /\ path_exists os ra = true
        /\ forall rc, resolve os c = Return rc -> path_exists os rc = false).
Proof.
  destruct w as [h t].
  certs_cases os ca cert; rewrite_run;
    cbn [fst snd heap trace]; intros Hraise; try discriminate Hraise;
    (split; [intros l name Hne | intros Hheap]);
    try reflexivity; try (contradiction Hheap; reflexivity);
    try (now rewrite (getattr_alter_other _ t) by exact Hne).
  - eexists _, _, _. repeat split; try eassumption.
    intros rc' Hrc. congruence.
  - eexists _, _, _. repeat split; try eassumption.
    intros rc' Hrc. congruence.
Qed.

Lemma add_certs_raise_frame_witness :
  (add_certs_to_session Examples.os_cwd 1%positive
     (Some "ca.pem") (Some "missing.pem") Examples.w1).2
  = Raise (cert_missing "missing.pem")
  /\ getattr (add_certs_to_session Examples.os_cwd 1%positive
                (Some "ca.pem") (Some "missing.pem") Examples.w1).1
       1%positive "cert" = Some VNone.
Proof.
  split; [reflexivity|].
  exact (proj1 (add_certs_raise_frame Examples.os_cwd Examples.w1 1%positive
                  (Some "ca.pem") (Some "missing.pem")
                  (cert_missing "missing.pem") eq_refl)
           1%positive "cert" ltac:(discriminate)).
Defined.

(** X5.  The call never reads the session: its result and the calls it
    makes are the same whatever objects the heap holds, so the values that
    [verify] and [cert] had before play no part. *)
Theorem add_certs_ignores_heap os session ca cert h h' t :
  (add_certs_to_session os session ca cert (MkWorld h t)).2
  = (add_certs_to_session os session ca cert (MkWorld h' t)).2
  /\ trace (add_certs_to_session os session ca cert (MkWorld h t)).1
     = trace (add_certs_to_session os session ca cert (MkWorld h' t)).1.
Proof.
  certs_cases os ca cert; do 2 rewrite_run; split; reflexivity.
Qed.

(** ** Paths that are used as they are given *)

Lemma add_certs_ca_unresolved os w session p :
  resolve os p = Return p ->
  path_events os p p = [EvExpandvars p; EvExpanduser (expandvars os p);
                        EvExists p]
  /\ (forall cert, path_exists os p = false ->
        add_certs_to_session os session (Some p) cert w =
          (MkWorld (heap w) (trace w ++ path_events os p p),
           Raise (MkExn OSError ("CA bundle file does not exist: " +:+ p))))
  /\ (path_exists os p = true ->
        add_certs_to_session os session (Some p) None w =
          (MkWorld (alter (set_attr_obj "verify" (VStr p)) session (heap w))
             (trace w ++ path_events os p p
                ++ [EvLogDebug ("use CA bundle file: " +:+ p)]),
           Return session)).
Proof.
  intros R. split; [reflexivity|split].
  - intros cert E. now rewrite (add_certs_ca_missing _ _ _ _ _ _ R E).
  - intros E. now rewrite (add_certs_ca_only _ _ _ _ _ R E).
Qed.

(** X6.  A path without [$] that does not begin with [~] is taken as it is,
    in every environment: the existence check is made on the path as given;
    if it fails the error message ends with the path as given (whatever the
    certificate argument is), and if it succeeds [verify] becomes the path
    as given. *)
Theorem add_certs_plain_path os w session p :
  "$"%char ∉ list_ascii_of_string p ->
  (forall r, p <> String "~" r) ->
  resolve os p = Return p
  /\ path_events os p p = [EvExpandvars p; EvExpanduser p; EvExists p]
  /\ (forall cert, path_exists os p = false ->
        add_certs_to_session os session (Some p) cert w =
          (MkWorld (heap w)
             (trace w ++ [EvExpandvars p; EvExpanduser p; EvExists p]),
           Raise (MkExn OSError ("CA bundle file does not exist: " +:+ p))))
  /\ (path_exists os p = true ->
        add_certs_to_session os session (Some p) None w =
          (MkWorld (alter (set_attr_obj "verify" (VStr p)) session (heap w))
             (trace w ++ [EvExpandvars p; EvExpanduser p; EvExists p]
                ++ [EvLogDebug ("use CA bundle file: " +:+ p)]),
           Return session)).
Proof.
  intros Hd Ht.
  assert (Ev : expandvars os p = p).
  { rewrite expandvars_unroll. now rewrite search_var_no_dollar. }
  assert (R : resolve os p = Return p).
  { unfold resolve. rewrite Ev. now apply expanduser_no_tilde. }
  destruct (add_certs_ca_unresolved os w session p R) as (He & Hm & Hs).
  rewrite Ev in He. rewrite He in Hm, Hs. auto.
Qed.

Lemma add_certs_plain_path_witness :
  ("$"%char ∉ list_ascii_of_string "certs/ca~1.pem")
  /\ (forall r, "certs/ca~1.pem" <> String "~" r)
  /\ resolve Examples.os_home "certs/ca~1.pem" = Return "certs/ca~1.pem"
  /\ add_certs_to_session Examples.os_home 1%positive
       (Some "certs/ca~1.pem") (Some "~/certs/ca.pem") Examples.w1
     = (MkWorld (heap Examples.w1)
          [EvExpandvars "certs/ca~1.pem"; EvExpanduser "certs/ca~1.pem";
           EvExists "certs/ca~1.pem"],
        Raise (MkExn OSError
                 "CA bundle file does not exist: certs/ca~1.pem")).
Proof.
  assert (Hd : "$"%char ∉ list_ascii_of_string "certs/ca~1.pem").
  { rewrite list_elem_of_In. vm_compute. intuition discriminate. }
  assert (Ht : forall r, "certs/ca~1.pem" <> String "~" r)
    by (intros r; discriminate).
  split; [exact Hd|]. split; [exact Ht|].
  destruct (add_certs_plain_path Examples.os_home Examples.w1 1%positive
              "certs/ca~1.pem" Hd Ht) as (R & _ & Hm & _).
  split; [exact R|].
  exact (Hm (Some "~/certs/ca.pem") eq_refl).
Defined.



(** ** Sessions made by the constructors *)

(** X8.  Chaining: a session made from a username and a password and then
    given a CA bundle and a certificate (both existing) is one [Session]
    object that carries the pair in [auth], the resolved paths in [verify]
    and [cert] and the constructor's values everywhere else; both calls
    return the same reference, and no object that existed before is
    changed. *)
Theorem create_then_add_certs
    rt os w username password ca cert rca rcert :
  resolve os ca = Return rca -> path_exists os rca = true ->
  resolve os cert = Return rcert -> path_exists os rcert = true ->
  exists session w1 w2,
    create_session_from_user_pass rt username password w
    = (w1, Return session)
    /\ add_certs_to_session os session (Some ca) (Some cert) w1
       = (w2, Return session)
    /\ heap w !! session = None
    /\ heap w2 !! session =
         Some (MkObj "Session"
                 (<["cert" := VStr rcert]>
                    (<["verify" := VStr rca]>
                       (<["auth" := VTuple [VStr username; VStr password]]>
                          (session_defaults rt)))))
    /\ getattr w2 session "auth"
       = Some (VTuple [VStr username; VStr password])
    /\ (forall l, l <> session -> heap w2 !! l = heap w !! l).
Proof.
  intros Rca Hca Rcert Hcert.
  assert (E : create_session_from_user_pass rt username password w
              = create_session_from_auth rt
                  (VTuple [VStr username; VStr password]) w) by reflexivity.
  rewrite E, new_session_with_auth.
  eexists _, _, _. split; [reflexivity|].
  rewrite (add_certs_both _ _ _ _ _ _ _ Rca Hca Rcert Hcert).
  cbn [heap trace].
  split; [reflexivity|]. split; [apply fresh_loc_unused|].
  assert (Hobj : forall h : gmap loc obj, forall l o,
            alter (set_attr_obj "cert" (VStr rcert)) l
              (alter (set_attr_obj "verify" (VStr rca)) l
                 (<[l := o]> h)) !! l
            = Some (set_attr_obj "cert" (VStr rcert)
                      (set_attr_obj "verify" (VStr rca) o))).
  { intros h l o. now rewrite !lookup_alter_eq, lookup_insert_eq. }
  split; [apply Hobj|]. split.
  - unfold getattr. cbn [heap]. rewrite Hobj. cbn.
    now rewrite !lookup_insert_ne, lookup_insert_eq by discriminate.
  - intros l Hl. cbn [heap].
    now rewrite !lookup_alter_ne, lookup_insert_ne by congruence.
Qed.

Lemma create_then_add_certs_witness :
  resolve Examples.os_cwd "ca.pem" = Return "ca.pem"
  /\ path_exists Examples.os_cwd "ca.pem" = true
  /\ resolve Examples.os_cwd "client.pem" = Return "client.pem"
  /\ path_exists Examples.os_cwd "client.pem" = true
  /\ exists session w1 w2,
       create_session_from_user_pass Examples.rt_plain "u" "p" Examples.w1
       = (w1, Return session)
       /\ add_certs_to_session Examples.os_cwd session
            (Some "ca.pem") (Some "client.pem") w1 = (w2, Return session)
       /\ getattr w2 session "auth" = Some (VTuple [VStr "u"; VStr "p"]).
Proof.
  split; [reflexivity|]. split; [reflexivity|].
  split; [reflexivity|]. split; [reflexivity|].
  destruct (create_then_add_certs Examples.rt_plain Examples.os_cwd
              Examples.w1 "u" "p" "ca.pem" "client.pem"
              "ca.pem" "client.pem" eq_refl eq_refl eq_refl eq_refl)
    as (s & w1 & w2 & H1 & H2 & _ & _ & Ha & _).
  exists s, w1, w2. split; [exact H1|]. split; [exact H2 | exact Ha].
Defined.

(** X9.  Sessions made by successive calls are different objects: the
    second call returns a reference other than the first, each session has
    the [auth] it was made with, and making the second does not change the
    first. *)
Theorem created_sessions_are_distinct rt w auth1 auth2 :
  exists s1 s2 w1 w2,
    create_session_from_auth rt auth1 w = (w1, Return s1)
    /\ create_session_from_auth rt auth2 w1 = (w2, Return s2)
    /\ s1 <> s2
    /\ getattr w2 s1 "auth" = Some auth1
    /\ getattr w2 s2 "auth" = Some auth2
    /\ heap w2 !! s1 = heap w1 !! s1.
Proof.
  rewrite new_session_with_auth.
  eexists _, _, _, _. split; [reflexivity|].
  rewrite new_session_with_auth. cbn [heap trace].
  split; [reflexivity|].
  set (s1 := fresh (dom (heap w))).
  set (o1 := MkObj "Session" (<["auth" := auth1]> (session_defaults rt))).
  set (s2 := fresh (dom (<[s1 := o1]> (heap w)))).
  assert (Hne : s1 <> s2).
  { intros Heq.
    pose proof (fresh_loc_unused (<[s1 := o1]> (heap w))) as Hf.
    fold s2 in Hf. rewrite <- Heq, lookup_insert_eq in Hf. discriminate. }
  split; [exact Hne|].
  unfold getattr. cbn [heap].
  rewrite lookup_insert_ne, !lookup_insert_eq by congruence. cbn.
  rewrite !lookup_insert_eq. auto.
Qed.

(** ** Failures of [create_session_from_gcp_credentials] *)

Lemma gcp_first_import_raises rt credentials w e :
  import_error rt "google.auth.transport.requests" = Some e ->
  create_session_from_gcp_credentials rt credentials w =
    (MkWorld (heap w) (trace w ++ [EvImport "google.auth.transport.requests"]),
     Raise (if isinstance e ImportError then gcp_extra_missing else e)).
Proof.
  intros Himp. destruct w as [h t]. run_py.
  rewrite Himp. cbn [heap trace].
  now destruct (isinstance e ImportError).
Qed.

Lemma gcp_second_import_raises rt w e :
  import_error rt "google.auth.transport.requests" = None ->
  import_error rt "google.auth" = Some e ->
  create_session_from_gcp_credentials rt VNone w =
    (MkWorld (heap w)
       (trace w ++ [EvImport "google.auth.transport.requests";
                    EvImport "google.auth"]),
     Raise (if isinstance e ImportError then gcp_extra_missing else e)).
Proof.
  intros Ht Ha. destruct w as [h t]. run_py.
  rewrite Ht. cbn [heap trace is_None]. rewrite Ha. cbn [heap trace].
  destruct (isinstance e ImportError); now rewrite <- ?app_assoc.
Qed.

Lemma is_None_true v : is_None v = true -> v = VNone.
Proof. destruct v; (discriminate || reflexivity). Qed.

(** X10.  Every failure of the call leaves the heap as it was (no session
    is made), and the error is either the module's own [ImportError] about
    the [gcp] extra or an error of another class that an import or
    [google.auth.default] raised, passed on unchanged; the last two only
    when no credentials were given.  So no [ImportError] other than the
    module's own ever leaves the call. *)
Theorem gcp_failure_kinds rt credentials w e :
  (create_session_from_gcp_credentials rt credentials w).2 = Raise e ->
  heap (create_session_from_gcp_credentials rt credentials w).1 = heap w
  /\ (e = gcp_extra_missing
      \/ (isinstance e ImportError = false
          /\ (import_error rt "google.auth.transport.requests" = Some e
              \/ (credentials = VNone
                  /\ (import_error rt "google.auth" = Some e
                      \/ auth_default rt
                           ["https://www.googleapis.com/auth/cloud-platform"]
                         = Raise e))))).
Proof.
  destruct (import_error rt "google.auth.transport.requests") as [e1|] eqn:Ht.
  - rewrite (gcp_first_import_raises _ _ _ _ Ht). cbn [fst snd heap].
    destruct (isinstance e1 ImportError) eqn:Hc; intros [= <-]; auto.
  - destruct (is_None credentials) eqn:Hn.
    + apply is_None_true in Hn as ->.
      destruct (import_error rt "google.auth") as [e2|] eqn:Ha.
      * rewrite (gcp_second_import_raises _ _ _ Ht Ha). cbn [fst snd heap].
        destruct (isinstance e2 ImportError) eqn:Hc; intros [= <-]; auto 8.
      * rewrite (gcp_default_credentials rt w _ Ht Ha eq_refl).
        destruct (auth_default rt _) as [[c p]|e3] eqn:Hd;
          cbn [fst snd heap]; [discriminate|].
        destruct (isinstance e3 ImportError) eqn:Hc; intros [= <-]; auto 8.
    + rewrite gcp_given_credentials by assumption. discriminate.
Qed.

Lemma gcp_failure_kinds_witness :
  (create_session_from_gcp_credentials Examples.rt_gcp_no_credentials
     VNone Examples.w1).2 = Raise Examples.no_credentials
  /\ heap (create_session_from_gcp_credentials Examples.rt_gcp_no_credentials
             VNone Examples.w1).1 = heap Examples.w1.
Proof.
  split; [reflexivity|].
  exact (proj1 (gcp_failure_kinds Examples.rt_gcp_no_credentials VNone
                  Examples.w1 Examples.no_credentials eq_refl)).
Defined.

(** X11.  The [try] block covers more than the first import.  Without
    credentials, an [ImportError] raised by [import google.auth] or by
    [google.auth.default] itself is also replaced by the module's error
    about the [gcp] extra, although [google.auth.transport.requests] was
    imported; in the first case [google.auth.default] is not called. *)
Theorem gcp_masks_import_errors rt w e :
  import_error rt "google.auth.transport.requests" = None ->
  isinstance e ImportError = true ->
  (import_error rt "google.auth" = Some e ->
   create_session_from_gcp_credentials rt VNone w =
     (MkWorld (heap w)
        (trace w ++ [EvImport "google.auth.transport.requests";
                     EvImport "google.auth"]),
      Raise gcp_extra_missing))
  /\ (import_error rt "google.auth" = None ->
      auth_default rt ["https://www.googleapis.com/auth/cloud-platform"]
      = Raise e ->
      create_session_from_gcp_credentials rt VNone w =
        (MkWorld (heap w)
           (trace w ++ [EvImport "google.auth.transport.requests";
                        EvImport "google.auth";
                        EvAuthDefault
                          ["https://www.googleapis.com/auth/cloud-platform"]]),
         Raise gcp_extra_missing)).
Proof.
  intros Ht Hc. split.
  - intros Ha. rewrite (gcp_second_import_raises _ _ _ Ht Ha).
    now rewrite Hc.
  - intros Ha Hd. rewrite (gcp_default_credentials rt w _ Ht Ha Hd).
    now rewrite Hc.
Qed.

Lemma gcp_masks_import_errors_witness :
  import_error Examples.rt_gcp_broken "google.auth.transport.requests" = None
  /\ import_error Examples.rt_transport_only "google.auth"
     = Some Examples.no_module
  /\ (create_session_from_gcp_credentials Examples.rt_transport_only
        VNone Examples.w1).2 = Raise gcp_extra_missing
  /\ (create_session_from_gcp_credentials Examples.rt_gcp_broken
        VNone Examples.w1).2 = Raise gcp_extra_missing.
Proof.
  split; [reflexivity|]. split; [reflexivity|].
  pose proof (proj1 (gcp_masks_import_errors Examples.rt_transport_only
                       Examples.w1 Examples.no_module eq_refl eq_refl)
                eq_refl) as H1.
  pose proof (proj2 (gcp_masks_import_errors Examples.rt_gcp_broken
                       Examples.w1
                       (MkExn ImportError "cannot import name 'crypt'")
                       eq_refl eq_refl)
                eq_refl eq_refl) as H2.
  split; [now rewrite H1 | now rewrite H2].
Defined.

(** X12.  With credentials given, nothing but the first import and the
    constructor of [AuthorizedSession] matters: two runtimes that agree on
    those give the same result, whether or not [google.auth] can be
    imported and whatever [google.auth.default] would do. *)
Theorem gcp_given_credentials_ignores_discovery rt rt' w credentials :
  is_None credentials = false ->
  import_error rt "google.auth.transport.requests"
  = import_error rt' "google.auth.transport.requests" ->
  authorized_session_defaults rt = authorized_session_defaults rt' ->
  create_session_from_gcp_credentials rt credentials w
  = create_session_from_gcp_credentials rt' credentials w.
Proof.
  intros Hn Hi Hd.
  destruct (import_error rt' "google.auth.transport.requests") as [e|] eqn:Ht.
  - now rewrite (gcp_first_import_raises rt _ _ _ Hi),
      (gcp_first_import_raises rt' _ _ _ Ht).
  - rewrite !gcp_given_credentials by assumption. now rewrite Hd.
Qed.

Lemma gcp_given_credentials_ignores_discovery_witness :
  is_None (VRef 5%positive) = false
  /\ create_session_from_gcp_credentials Examples.rt_transport_only
       (VRef 5%positive) Examples.w1
     = create_session_from_gcp_credentials Examples.rt_gcp
         (VRef 5%positive) Examples.w1.
Proof.
  split; [reflexivity|].
  exact (gcp_given_credentials_ignores_discovery Examples.rt_transport_only
           Examples.rt_gcp Examples.w1 (VRef 5%positive)
           eq_refl eq_refl eq_refl).
Defined.
